(** * The withdrawal web interface server (server.py)

    A shallow embedding of [WebHandler]: the three POST handlers
    [handle_generate_proof], [handle_verify_proof] and [handle_health], the
    dispatchers [do_GET] and [do_POST], and the Python operations they rely
    on ([in], subscription, [int]).

    Modelling choices.
    - A decoded JSON document is a [json] value; a Python dict is a
      [gmap string json].  A Python [str] is modelled by its UTF-8
      encoding.
    - Python floats are IEEE binary64 numbers: Rocq's primitive [float].
    - An exception is a value of [exn]; code that may raise lives in the
      [result] monad and the [try ... except Exception] of a handler is the
      final [match] on that result.  The text of [str(e)] is CPython's and
      is not modelled: the message of a 500 page keeps the exception itself.
    - The wall clock and the random generator are read from an explicit
      environment [Env].
    - What a handler sends is a [Response]: the status line, the headers
      set with [send_header] and the document given to [json.dumps]; or the
      arguments of [send_error]; or the delegation to the inherited static
      file handler.  [handle_generate_proof] flushes its headers before it
      calls [json.dumps], which fails on a document nested too deep: the
      headers are then followed by the page of [send_error].
    - [SendError code message] is the call [send_error(code, message)].
      http.server encodes the status line in latin-1, so a message with
      other characters makes the call raise instead of sending its page.
      Only the [ValueError] of [int] on text outside latin-1 has such a
      message; where a statement speaks of the page sent for an exception
      of [int], it is for fields whose text is ASCII. *)

From Stdlib Require Import ZArith Floats List Ascii String Bool Lia.
From stdpp Require Import base option gmap strings.
Import ListNotations.

Set Warnings "-inexact-float,-register-all".

(** ** Python values and exceptions *)

Inductive json :=
| JNull
| JBool (b : bool)
| JInt (z : Z)
| JFloat (f : float)
| JString (s : string)
| JList (l : list json)
| JObject (m : gmap string json).

Inductive exn :=
| TypeError
| ValueError
| OverflowError
| KeyError
| JSONDecodeError
| UnicodeDecodeError
| RecursionError.

Inductive result (A : Type) :=
| Ok (a : A)
| Raised (e : exn).
Arguments Ok {A} a.
Arguments Raised {A} e.

Definition bind {A B : Type} (r : result A) (f : A -> result B) : result B :=
  match r with
  | Ok a => f a
  | Raised e => Raised e
  end.

Notation "'let*' x := r 'in' k" := (bind r (fun x => k))
  (at level 10, x name, r at level 100, k at level 200).

Module Py.

(** [s * n] on a string. *)
Fixpoint str_mul (s : string) (n : nat) : string :=
  match n with
  | O => EmptyString
  | S k => s +:+ str_mul s k
  end.

(** [k in s] for two strings: [k] occurs in [s]. *)
Fixpoint occurs (k s : string) : bool :=
  String.prefix k s ||
  match s with
  | EmptyString => false
  | String _ rest => occurs k rest
  end.

(** [key in data].  A dict tests its keys, a list compares its elements
    with the key, a string searches for the key; the other values are not
    iterable and the test raises [TypeError]. *)
Definition contains (key : string) (data : json) : result bool :=
  match data with
  | JObject m => Ok (match m !! key with Some _ => true | None => false end)
  | JList l =>
      Ok (existsb (fun x => if x is JString s then String.eqb s key else false) l)
  | JString s => Ok (occurs key s)
  | JNull | JBool _ | JInt _ | JFloat _ => Raised TypeError
  end.

(** [data[key]] with a string key.  Only a dict can be subscripted so:
    a missing key raises [KeyError], every other value [TypeError]. *)
Definition getitem (data : json) (key : string) : result json :=
  match data with
  | JObject m =>
      match m !! key with
      | Some v => Ok v
      | None => Raised KeyError
      end
  | _ => Raised TypeError
  end.

(** [int(f)] on a float: truncation towards zero; infinities raise
    [OverflowError] and NaN raises [ValueError]. *)
Definition int_of_float (f : float) : result Z :=
  match Prim2SF f with
  | S754_zero _ => Ok 0%Z
  | S754_infinity _ => Raised OverflowError
  | S754_nan => Raised ValueError
  | S754_finite sign m e =>
      let a := Z.shiftl (Z.pos m) e in
      Ok (if sign then (- a)%Z else a)
  end.

(** *** [int] on text

    A [str] is modelled by its UTF-8 encoding, one [ascii] per byte;
    [int] works on its code points. *)

(** The code points of a UTF-8 encoded text.  Sequences that no [str]
    encodes to are decoded leniently. *)
Fixpoint utf8_decode (s : list N) : list N :=
  match s with
  | [] => []
  | b :: rest =>
      if b <? 0x80 then b :: utf8_decode rest
      else if b <? 0xE0 then
        match rest with
        | c1 :: rest1 => (b mod 32 * 64 + c1 mod 64) :: utf8_decode rest1
        | _ => [b]
        end
      else if b <? 0xF0 then
        match rest with
        | c1 :: c2 :: rest2 =>
            (b mod 16 * 4096 + c1 mod 64 * 64 + c2 mod 64)
              :: utf8_decode rest2
        | _ => [b]
        end
      else
        match rest with
        | c1 :: c2 :: c3 :: rest3 =>
            (b mod 8 * 262144 + c1 mod 64 * 4096 + c2 mod 64 * 64 + c3 mod 64)
              :: utf8_decode rest3
        | _ => [b]
        end
  end%N.

Definition code_points (s : string) : list N :=
  utf8_decode (map N_of_ascii (list_ascii_of_string s)).

(** [Py_UNICODE_ISSPACE] above ASCII (Unicode 14.0, CPython 3.11). *)
Definition unicode_spaces : list N :=
  [
   0x85; 0xa0; 0x1680; 0x2000; 0x2001; 0x2002; 0x2003; 0x2004; 0x2005;
   0x2006; 0x2007; 0x2008; 0x2009; 0x200a; 0x2028; 0x2029; 0x202f; 0x205f;
   0x3000
  ]%N.

(** The code points of the digits zero above ASCII: every decimal digit
    [Py_UNICODE_TODECIMAL] knows is one of the ten code points from one of
    them on (Unicode 14.0, CPython 3.11). *)
Definition unicode_zeros : list N :=
  [
   0x660; 0x6f0; 0x7c0; 0x966; 0x9e6; 0xa66; 0xae6; 0xb66; 0xbe6; 0xc66;
   0xce6; 0xd66; 0xde6; 0xe50; 0xed0; 0xf20; 0x1040; 0x1090; 0x17e0;
   0x1810; 0x1946; 0x19d0; 0x1a80; 0x1a90; 0x1b50; 0x1bb0; 0x1c40; 0x1c50;
   0xa620; 0xa8d0; 0xa900; 0xa9d0; 0xa9f0; 0xaa50; 0xabf0; 0xff10; 0x104a0;
   0x10d30; 0x11066; 0x110f0; 0x11136; 0x111d0; 0x112f0; 0x11450; 0x114d0;
   0x11650; 0x116c0; 0x11730; 0x118e0; 0x11950; 0x11c50; 0x11d50; 0x11da0;
   0x16a60; 0x16ac0; 0x16b50; 0x1d7ce; 0x1d7d8; 0x1d7e2; 0x1d7ec; 0x1d7f6;
   0x1e140; 0x1e2f0; 0x1e950; 0x1fbf0
  ]%N.

Definition to_decimal (ch : N) : option N :=
  (fun zero => ch - zero)%N <$>
  List.find (fun zero => (zero <=? ch) && (ch <? zero + 10))%N unicode_zeros.

(** [_PyUnicode_TransformDecimalAndSpaceToASCII]: a space becomes [' '],
    a decimal digit its ASCII digit, and the text is cut with ['?'] at the
    first other character; ASCII text is left as it is. *)
Fixpoint transform (s : list N) : list N :=
  match s with
  | [] => []
  | ch :: rest =>
      if ch <? 127 then ch :: transform rest
      else if existsb (N.eqb ch) unicode_spaces then 32 :: transform rest
      else
        match to_decimal ch with
        | Some d => (48 + d) :: transform rest
        | None => [63]
        end
  end%N.

Definition to_ascii_digits (s : list N) : list N :=
  if forallb (fun ch => ch <? 128)%N s then s else transform s.

(** [Py_ISSPACE] *)
Definition is_space (c : N) : bool :=
  (((9 <=? c) && (c <=? 13)) || (c =? 32))%N.

Definition digit_val (c : N) : option Z :=
  if ((48 <=? c) && (c <=? 57))%N then Some (Z.of_N (c - 48)) else None.

Fixpoint lstrip (s : list N) : list N :=
  match s with
  | c :: rest => if is_space c then lstrip rest else s
  | [] => []
  end.

Definition strip (s : list N) : list N :=
  rev (lstrip (rev (lstrip s))).

(** Decimal digits, where one underscore may stand between two digits:
    the number and how many digits it has. *)
Fixpoint parse_digits (acc : Z) (digits : nat) (after_digit : bool)
    (s : list N) : option (Z * nat) :=
  match s with
  | [] => if after_digit then Some (acc, digits) else None
  | c :: rest =>
      match digit_val c with
      | Some d => parse_digits (acc * 10 + d) (S digits) true rest
      | None =>
          if (c =? 95)%N && after_digit
          then parse_digits acc digits false rest
          else None
      end
  end.

(** The default of [sys.get_int_max_str_digits()]. *)
Definition int_max_str_digits : nat := 4300.

(** [int(s)] on a string, base 10 ([PyLong_FromString] on the transformed
    text): surrounding white space, an optional sign, digits.  Text with
    more than [int_max_str_digits] digits is refused; so is everything
    else that is not a number, both with [ValueError]. *)
Definition int_of_str (s : string) : result Z :=
  let parsed :=
    match strip (to_ascii_digits (code_points s)) with
    | 45%N :: rest =>
        '(z, n) ← parse_digits 0 0 false rest; Some ((- z)%Z, n)
    | 43%N :: rest => parse_digits 0 0 false rest
    | t => parse_digits 0 0 false t
    end in
  match parsed with
  | Some (z, n) =>
      if int_max_str_digits <? n then Raised ValueError else Ok z
  | None => Raised ValueError
  end.

(** [int(v)]. *)
Definition int (v : json) : result Z :=
  match v with
  | JInt z => Ok z
  | JBool b => Ok (if b then 1 else 0)%Z
  | JFloat f => int_of_float f
  | JString s => int_of_str s
  | JNull | JList _ | JObject _ => Raised TypeError
  end.

End Py.

(** ** The environment of a request *)

(** The nesting depth of a document: 0 for a scalar, one more than its
    deepest member for an array or an object. *)
Fixpoint json_depth (v : json) : nat :=
  match v with
  | JList l => S (foldr (fun x acc => Nat.max (json_depth x) acc) 0 l)
  | JObject m => S (map_fold (fun _ x acc => Nat.max (json_depth x) acc) 0 m)
  | JNull | JBool _ | JInt _ | JFloat _ | JString _ => 0
  end.

(** What a handler reads from its surroundings: [time.time()],
    [random.random()], and the deepest nesting that [json.dumps] (like
    [json.loads]) handles when a handler calls it; deeper documents raise
    [RecursionError].  The last is a little under
    [sys.getrecursionlimit()]. *)
Record Env := {
  time_time : float;
  random_random : float;
  json_max_depth : nat
}.

(** [json.dumps(doc)], as far as it can fail. *)
Definition json_dumps (env : Env) (doc : json) : result unit :=
  if json_depth doc <=? json_max_depth env then Ok tt
  else Raised RecursionError.

(** A request, by method.  [payload] is the outcome of the first three
    statements of the POST handlers
    ([int(self.headers['Content-Length'])], [self.rfile.read],
    [json.loads(post_data.decode('utf-8'))]): the decoded document, or the
    exception one of them raised. *)
Inductive Request :=
| GET (path : string)
| POST (path : string) (payload : result json).

Inductive Message :=
| Text (s : string)
| InternalServerError (e : exn).

Inductive Response :=
| Sent (code : Z) (headers : list (string * string)) (body : json)
| SendError (code : Z) (message : Message)
| SuperGET (path : string)
| HeadersThenError (code : Z) (headers : list (string * string))
    (message : Message).

(** ** WebHandler *)

Definition json_headers : list (string * string) :=
  [("Content-type", "application/json");
   ("Access-Control-Allow-Origin", "*")].

(** [try: ... except Exception as e: self.send_error(500, ...)] *)
Definition try_except (body : result Response) : Response :=
  match body with
  | Ok r => r
  | Raised e => SendError 500 (InternalServerError e)
  end.

Definition required_fields : list string :=
  ["user_address"; "pool_id"; "user_balance"; "withdrawal_amount";
   "pool_liquidity"].

(** The validation loop: the first field of [fields] that is not in
    [data], if there is one. *)
Fixpoint first_missing (fields : list string) (data : json)
  : result (option string) :=
  match fields with
  | [] => Ok None
  | field :: rest =>
      let* present := Py.contains field data in
      if present then first_missing rest data else Ok (Some field)
  end.

(** [int(data[key])] *)
Definition int_field (data : json) (key : string) : result Z :=
  let* v := Py.getitem data key in
  Py.int v.

(** The dict literal [proof_data] of [handle_generate_proof], given the
    values of its computed items. *)
Definition mock_artifact (user_address : json)
    (pool_id user_balance withdrawal_amount pool_liquidity timestamp : Z)
  : json :=
  JObject
    {[ "proof" := JString ("0x" +:+ Py.str_mul "a" 2000);
       "public_inputs" := JString ("0x" +:+ Py.str_mul "b" 100);
       "vkey_hash" := JString ("0x" +:+ Py.str_mul "c" 64);
       "mode" := JString "compressed";
       "user_address" := user_address;
       "pool_id" := JInt pool_id;
       "user_balance" := JInt user_balance;
       "withdrawal_amount" := JInt withdrawal_amount;
       "pool_liquidity" := JInt pool_liquidity;
       "timestamp" := JInt timestamp;
       "is_valid" := JBool true ]}.

(** [int(__import__('time').time() * 1000)] *)
Definition timestamp_ms (env : Env) : result Z :=
  Py.int_of_float (time_time env * 1000).

(** The items of [proof_data] are evaluated in the order of the source. *)
Definition mock_proof_data (env : Env) (data : json) : result json :=
  let* user_address := Py.getitem data "user_address" in
  let* pool_id := int_field data "pool_id" in
  let* user_balance := int_field data "user_balance" in
  let* withdrawal_amount := int_field data "withdrawal_amount" in
  let* pool_liquidity := int_field data "pool_liquidity" in
  let* timestamp := timestamp_ms env in
  Ok (mock_artifact user_address pool_id user_balance withdrawal_amount
        pool_liquidity timestamp).

(** The 200 status line and the two headers are sent before [json.dumps]
    is called, inside the [try]: when [json.dumps] raises, the page of
    [send_error(500, ...)] follows the headers already sent. *)
Definition handle_generate_proof (env : Env) (payload : result json)
  : Response :=
  try_except (
    let* data := payload in
    let* missing := first_missing required_fields data in
    match missing with
    | Some field =>
        Ok (SendError 400 (Text ("Missing required field: " +:+ field)))
    | None =>
        let* proof_data := mock_proof_data env data in
        let doc := JObject {[ "success" := JBool true; "data" := proof_data ]} in
        match json_dumps env doc with
        | Ok _ => Ok (Sent 200 json_headers doc)
        | Raised e =>
            Ok (HeadersThenError 200 json_headers (InternalServerError e))
        end
    end).

(** The document sent is nested no deeper than the request that
    [json.loads] decoded, so that [json.dumps] does not fail on it. *)
Definition handle_verify_proof (env : Env) (payload : result json)
  : Response :=
  try_except (
    let* data := payload in
    let* present := Py.contains "proof_data" data in
    if negb present then Ok (SendError 400 (Text "Missing proof_data"))
    else
      let* proof_data := Py.getitem data "proof_data" in
      let is_valid := (0.1 <? random_random env)%float in
      Ok (Sent 200 json_headers
            (JObject {[ "success" := JBool true;
                        "valid" := JBool is_valid;
                        "data" := proof_data ]}))).

Definition handle_health (env : Env) : Response :=
  Sent 200 json_headers
    (JObject {[ "status" := JString "healthy";
                "timestamp" := JFloat (time_time env);
                "version" := JString "1.0.0" ]}).

Definition do_GET (path : string) : Response :=
  SuperGET (if String.eqb path "/" then "/index.html" else path).

Definition do_POST (env : Env) (path : string) (payload : result json)
  : Response :=
  if String.eqb path "/api/generate-proof" then
    handle_generate_proof env payload
  else if String.eqb path "/api/verify-proof" then
    handle_verify_proof env payload
  else if String.eqb path "/api/health" then
    handle_health env
  else SendError 404 (Text "Not Found").

(** Modelled from the spec: the configuration option and the two external
    dependencies of section 6 and section 4.5 (public-CORS-enabled flag,
    proof engine, verification engine).  server.py has no configuration and
    no client of either engine; the record only lets statements quantify
    over the state in which the server is deployed. *)
Record Deployment := {
  public_cors_enabled : bool;
  proof_engine_reachable : bool;
  verifier_reachable : bool
}.

(** The server as deployed: [BaseHTTPRequestHandler] calls [do_GET] or
    [do_POST] by the request's method.  No handler receives the
    deployment. *)
Definition serve (d : Deployment) (env : Env) (req : Request) : Response :=
  match req with
  | GET path => do_GET path
  | POST path payload => do_POST env path payload
  end.

(** Modelled from the spec: the status section 4.5 asks of the Health
    Reporter. *)
Definition spec_health_status (d : Deployment) : string :=
  match proof_engine_reachable d, verifier_reachable d with
  | true, true => "healthy"
  | false, false => "unhealthy"
  | _, _ => "degraded"
  end.

(** ** Observations on a response *)

Definition status (r : Response) : option Z :=
  match r with
  | Sent code _ _ | SendError code _ | HeadersThenError code _ _ => Some code
  | SuperGET _ => None
  end.

Definition is_success (r : Response) : bool :=
  if r is Sent 200 _ _ then true else false.

(** A member of the JSON document sent. *)
Definition body_field (k : string) (r : Response) : option json :=
  if r is Sent _ _ (JObject m) then m !! k else None.

(** A member of the ["data"] object of the document sent. *)
Definition data_field (k : string) (r : Response) : option json :=
  if body_field "data" r is Some (JObject d) then d !! k else None.

(** The headers a handler sets with [send_header]. *)
Definition headers_set (r : Response) : list (string * string) :=
  match r with
  | Sent _ hs _ | HeadersThenError _ hs _ => hs
  | SendError _ _ | SuperGET _ => []
  end.

Definition cors_header : string * string :=
  ("Access-Control-Allow-Origin", "*").


(** A dict that has the five required keys, the four numeric values
    coercible by [int]. *)
Record well_formed (m : gmap string json) (user_address : json)
    (pool_id user_balance withdrawal_amount pool_liquidity : Z) : Prop := {
  wf_user_address : m !! "user_address" = Some user_address;
  wf_pool_id : int_field (JObject m) "pool_id" = Ok pool_id;
  wf_user_balance : int_field (JObject m) "user_balance" = Ok user_balance;
  wf_withdrawal_amount :
    int_field (JObject m) "withdrawal_amount" = Ok withdrawal_amount;
  wf_pool_liquidity :
    int_field (JObject m) "pool_liquidity" = Ok pool_liquidity
}.

(** ** Sample inputs *)

Definition noon : Env :=
  {| time_time := 1730000000.5; random_random := 0.5;
     json_max_depth := 990 |}.

Definition unlucky : Env :=
  {| time_time := 1730000000.5; random_random := 0.0625;
     json_max_depth := 990 |}.

(** An interpreter with room for two levels of nesting only. *)
Definition cramped : Env :=
  {| time_time := 1730000000.5; random_random := 0.5;
     json_max_depth := 2 |}.

Definition all_down : Deployment :=
  {| public_cors_enabled := false;
     proof_engine_reachable := false;
     verifier_reachable := false |}.

Definition address : json :=
  JString "9xQeWvG816bUx9EPjHmaT23yvVM2ZWbrrpZb9PusVFin".

(** Withdraws 40 from a balance of 100. *)
Definition modest : gmap string json :=
  {[ "user_address" := address;
     "pool_id" := JInt 7;
     "user_balance" := JInt 100;
     "withdrawal_amount" := JInt 40;
     "pool_liquidity" := JInt 1000 ]}.

(** Withdraws 10 from a balance of 5. *)
Definition overdraft : gmap string json :=
  {[ "user_address" := address;
     "pool_id" := JInt 7;
     "user_balance" := JInt 5;
     "withdrawal_amount" := JInt 10;
     "pool_liquidity" := JInt 1000 ]}.

(** Pool -1 and a balance of -5, the liquidity given as text. *)
Definition negative : gmap string json :=
  {[ "user_address" := address;
     "pool_id" := JInt (-1);
     "user_balance" := JFloat (-5.5);
     "withdrawal_amount" := JInt 0;
     "pool_liquidity" := JString " -1_000 " ]}.

(** The numeric fields given as a boolean, a float, text with an
    underscore, and text in Arabic-Indic digits (1000). *)
Definition mixed : gmap string json :=
  {[ "user_address" := address;
     "pool_id" := JBool true;
     "user_balance" := JFloat 100.9;
     "withdrawal_amount" := JString " 4_0 ";
     "pool_liquidity" := JString "١٠٠٠" ]}.

(** The address given as an array: a request nested two levels deep. *)
Definition boxed : gmap string json :=
  {[ "user_address" := JList [address];
     "pool_id" := JInt 7;
     "user_balance" := JInt 100;
     "withdrawal_amount" := JInt 40;
     "pool_liquidity" := JInt 1000 ]}.

Definition artifact : gmap string json :=
  {[ "proof_data" := JObject {[ "proof" := JString "0xdead" ]} ]}.

(** A text that names the five fields. *)
Definition names_only : json :=
  JString "user_address pool_id user_balance withdrawal_amount pool_liquidity".

(** Only the address and the liquidity are given. *)
Definition partial : gmap string json :=
  {[ "user_address" := address;
     "pool_liquidity" := JString "plenty" ]}.

(** [modest] with two members the server does not know. *)
Definition annotated : gmap string json :=
  <["memo" := JString "rent"]> (<["proof_data" := JNull]> modest).

(** ** Lemmas on the embedding *)

Section Generate.

Variable env : Env.
Variable m : gmap string json.

Lemma int_field_present key z :
  int_field (JObject m) key = Ok z -> is_Some (m !! key).
Proof.
  unfold int_field, Py.getitem, bind.
  destruct (m !! key); [eauto | discriminate].
Qed.

Lemma contains_present key :
  is_Some (m !! key) -> Py.contains key (JObject m) = Ok true.
Proof. intros [v Hv]. unfold Py.contains. now rewrite Hv. Qed.

Lemma contains_absent key :
  m !! key = None -> Py.contains key (JObject m) = Ok false.
Proof. intros Hv. unfold Py.contains. now rewrite Hv. Qed.

(** The validation loop finds the first absent key of a dict. *)
Lemma first_missing_dict fields :
  first_missing fields (JObject m) =
  Ok (List.find (fun f => if m !! f is Some _ then false else true) fields).
Proof.
  induction fields as [|f fields IH]; [reflexivity|].
  cbn [first_missing List.find]. unfold Py.contains, bind.
  destruct (m !! f); [exact IH | reflexivity].
Qed.

Lemma first_missing_none ua pid ub wa pl :
  well_formed m ua pid ub wa pl ->
  first_missing required_fields (JObject m) = Ok None.
Proof.
  intros [Hua Hpid Hub Hwa Hpl]. rewrite first_missing_dict.
  apply int_field_present in Hpid as [? Hpid], Hub as [? Hub],
    Hwa as [? Hwa], Hpl as [? Hpl].
  unfold required_fields. cbn [List.find].
  now rewrite Hua, Hpid, Hub, Hwa, Hpl.
Qed.

(** The document of a success is nested two levels above the
    user_address. *)
Lemma success_doc_depth ua pid ub wa pl ts :
  json_depth
    (JObject {[ "success" := JBool true;
                "data" := mock_artifact ua pid ub wa pl ts ]}) =
  json_depth ua + 2.
Proof.
  assert (Hins : forall (o : gmap string json) k v, o !! k = None ->
            json_depth (JObject (<[k := v]> o)) =
            Nat.max (S (json_depth v)) (json_depth (JObject o))).
  { intros o k v Hk. cbn [json_depth].
    rewrite map_fold_insert_L; [lia | intros; lia | assumption]. }
  assert (Hdata : json_depth (mock_artifact ua pid ub wa pl ts) =
                  S (json_depth ua)).
  { unfold mock_artifact. rewrite <- insert_empty.
    rewrite !Hins by reflexivity.
    change (json_depth (JObject ∅)) with 1. cbn [json_depth]. lia. }
  rewrite <- insert_empty. rewrite !Hins by reflexivity. rewrite Hdata.
  change (json_depth (JObject ∅)) with 1. cbn [json_depth]. lia.
Qed.

(** A well-formed dict and a readable clock: the mock artifact with 200,
    or its headers and then the 500 page when it cannot be encoded. *)
Lemma generate_well_formed ua pid ub wa pl ts :
  well_formed m ua pid ub wa pl ->
  timestamp_ms env = Ok ts ->
  handle_generate_proof env (Ok (JObject m)) =
  if json_depth ua + 2 <=? json_max_depth env then
    Sent 200 json_headers
      (JObject {[ "success" := JBool true;
                  "data" := mock_artifact ua pid ub wa pl ts ]})
  else
    HeadersThenError 200 json_headers (InternalServerError RecursionError).
Proof.
  intros Hwf Hts. unfold handle_generate_proof.
  cbn [bind]. rewrite (first_missing_none _ _ _ _ _ Hwf). cbn [bind].
  destruct Hwf as [Hua Hpid Hub Hwa Hpl].
  unfold mock_proof_data. rewrite Hpid, Hub, Hwa, Hpl, Hts.
  unfold Py.getitem. rewrite Hua. cbn [bind].
  unfold json_dumps. rewrite success_doc_depth.
  now destruct (json_depth ua + 2 <=? json_max_depth env).
Qed.

Lemma generate_sent ua pid ub wa pl ts :
  well_formed m ua pid ub wa pl ->
  timestamp_ms env = Ok ts ->
  json_depth ua + 2 <= json_max_depth env ->
  handle_generate_proof env (Ok (JObject m)) =
  Sent 200 json_headers
    (JObject {[ "success" := JBool true;
                "data" := mock_artifact ua pid ub wa pl ts ]}).
Proof.
  intros Hwf Hts Hdepth.
  rewrite (generate_well_formed _ _ _ _ _ _ Hwf Hts).
  apply Nat.leb_le in Hdepth. now rewrite Hdepth.
Qed.

(** The same dict when the clock reading cannot be converted. *)
Lemma generate_clock_raised ua pid ub wa pl e :
  well_formed m ua pid ub wa pl ->
  timestamp_ms env = Raised e ->
  handle_generate_proof env (Ok (JObject m)) =
  SendError 500 (InternalServerError e).
Proof.
  intros Hwf Hts. unfold handle_generate_proof.
  cbn [bind]. rewrite (first_missing_none _ _ _ _ _ Hwf). cbn [bind].
  destruct Hwf as [Hua Hpid Hub Hwa Hpl].
  unfold mock_proof_data. rewrite Hpid, Hub, Hwa, Hpl, Hts.
  unfold Py.getitem. rewrite Hua. reflexivity.
Qed.

End Generate.

Lemma str_mul_repeat c n :
  Py.str_mul (String c EmptyString) n = string_of_list_ascii (repeat c n).
Proof. induction n as [|n IH]; [reflexivity|]. cbn. now rewrite IH. Qed.

(** The status codes of generate-proof: 200, 400 and 500 only. *)
Lemma generate_status env payload :
  status (handle_generate_proof env payload) ∈ [Some 200; Some 400; Some 500]%Z.
Proof.
  unfold handle_generate_proof, try_except, bind.
  destruct payload as [data|e]; [|set_solver].
  destruct (first_missing required_fields data) as [[f|]|e]; [set_solver| |set_solver].
  destruct (mock_proof_data env data) as [proof_data|]; [|set_solver].
  destruct (json_dumps env _); set_solver.
Qed.

(** On a dict, generate-proof answers an absent required key with 400 and
    names the first absent key. *)
Lemma generate_missing_field env (m : gmap string json) f :
  f ∈ required_fields -> m !! f = None ->
  exists g, g ∈ required_fields /\ m !! g = None /\
    handle_generate_proof env (Ok (JObject m)) =
    SendError 400 (Text ("Missing required field: " +:+ g)).
Proof.
  intros Hin Hf. unfold handle_generate_proof. cbn [bind].
  rewrite first_missing_dict.
  set (absent := fun f => if m !! f is Some _ then false else true).
  destruct (List.find absent required_fields) as [g|] eqn:Hfind.
  - apply find_some in Hfind as [Hg Habs]. exists g.
    split; [now apply list_elem_of_In|]. split; [|reflexivity].
    unfold absent in Habs. now destruct (m !! g).
  - exfalso. apply list_elem_of_In in Hin.
    pose proof (find_none _ _ Hfind f Hin) as Habs.
    unfold absent in Habs. now rewrite Hf in Habs.
Qed.

(** On a dict, verify-proof answers an absent [proof_data] with 400. *)
Lemma verify_missing_field env (m : gmap string json) :
  m !! "proof_data" = None ->
  handle_verify_proof env (Ok (JObject m)) =
  SendError 400 (Text "Missing proof_data").
Proof.
  intros Hm. unfold handle_verify_proof. cbn [bind].
  now rewrite (contains_absent _ _ Hm).
Qed.

(** ** The verification flag *)

(** C1 fails on the code: the same artifact, verified under two draws of
    [random.random()], gets two different validity flags. *)
Lemma verify_same_artifact_two_flags :
  body_field "valid" (handle_verify_proof noon (Ok (JObject artifact))) <>
  body_field "valid" (handle_verify_proof unlucky (Ok (JObject artifact))).
Proof. vm_compute. discriminate. Qed.

(** C1, as the code has it: for every body that is a dict with a
    [proof_data] member, verify-proof answers 200 and its validity flag is
    the test [random.random() > 0.1]: a function of the draw alone, the
    artifact is echoed back and not examined. *)
Theorem verify_flag_is_the_draw env (m : gmap string json) pd :
  m !! "proof_data" = Some pd ->
  handle_verify_proof env (Ok (JObject m)) =
  Sent 200 json_headers
    (JObject {[ "success" := JBool true;
                "valid" := JBool (0.1 <? random_random env)%float;
                "data" := pd ]}).
Proof.
  intros Hpd. unfold handle_verify_proof. cbn [bind].
  rewrite (contains_present m "proof_data") by eauto. cbn [negb bind].
  unfold Py.getitem. now rewrite Hpd.
Qed.

Lemma verify_flag_is_the_draw_witness :
  handle_verify_proof unlucky (Ok (JObject artifact)) =
  Sent 200 json_headers
    (JObject {[ "success" := JBool true;
                "valid" := JBool false;
                "data" := JObject {[ "proof" := JString "0xdead" ]} ]}).
Proof.
  apply (verify_flag_is_the_draw unlucky artifact
           (JObject {[ "proof" := JString "0xdead" ]})).
  vm_compute. reflexivity.
Defined.

(** ** The proof engine *)

(** C2 fails on the code: with the proof engine unreachable, a
    generate-proof request is answered 200 with the mock artifact. *)
Lemma engine_down_generate_200 :
  proof_engine_reachable all_down = false /\
  let r := serve all_down noon (POST "/api/generate-proof" (Ok (JObject modest))) in
  status r = Some 200%Z /\
  data_field "vkey_hash" r = Some (JString ("0x" +:+ Py.str_mul "c" 64)).
Proof. vm_compute. repeat split; reflexivity. Qed.

(** C2, as the code has it: generate-proof consults no engine.  While the
    proof engine is unreachable a request with the five fields, the numeric
    ones coercible, is answered 200 with the fixed-pattern mock artifact,
    provided the clock reading converts and the user_address is not nested
    too deep for the response to be encoded. *)
Theorem generate_when_engine_down d env (m : gmap string json)
    ua pid ub wa pl ts :
  proof_engine_reachable d = false ->
  well_formed m ua pid ub wa pl ->
  timestamp_ms env = Ok ts ->
  json_depth ua + 2 <= json_max_depth env ->
  serve d env (POST "/api/generate-proof" (Ok (JObject m))) =
  Sent 200 json_headers
    (JObject {[ "success" := JBool true;
                "data" := mock_artifact ua pid ub wa pl ts ]}).
Proof.
  intros _ Hwf Hts Hdepth. unfold serve, do_POST.
  change (String.eqb "/api/generate-proof" "/api/generate-proof") with true.
  cbv iota. now apply generate_sent.
Qed.

Lemma generate_when_engine_down_witness :
  serve all_down noon (POST "/api/generate-proof" (Ok (JObject modest))) =
  Sent 200 json_headers
    (JObject {[ "success" := JBool true;
                "data" := mock_artifact address 7 100 40 1000 1730000000500 ]}).
Proof.
  apply (generate_when_engine_down all_down noon modest address 7 100 40 1000
           1730000000500).
  - reflexivity.
  - split; vm_compute; reflexivity.
  - vm_compute. reflexivity.
  - cbn. lia.
Defined.

(** ** The balance rule *)

(** C3 fails on the code: a withdrawal of 10 from a balance of 5 is
    answered with a success. *)
Lemma overdraft_accepted :
  let r := handle_generate_proof noon (Ok (JObject overdraft)) in
  is_success r = true /\
  data_field "withdrawal_amount" r = Some (JInt 10) /\
  data_field "user_balance" r = Some (JInt 5).
Proof. vm_compute. repeat split; reflexivity. Qed.

(** C3, as the code has it: a generate-proof request with the five fields,
    the numeric ones coercible, whose withdrawal_amount exceeds its
    user_balance is answered 200 with the mock artifact, both amounts
    echoed, provided the clock reading converts and the user_address is not
    nested too deep for the response to be encoded; the two amounts are
    never compared. *)
Theorem generate_ignores_balance env (m : gmap string json)
    ua pid ub wa pl ts :
  well_formed m ua pid ub wa pl ->
  (ub < wa)%Z ->
  timestamp_ms env = Ok ts ->
  json_depth ua + 2 <= json_max_depth env ->
  handle_generate_proof env (Ok (JObject m)) =
  Sent 200 json_headers
    (JObject {[ "success" := JBool true;
                "data" := mock_artifact ua pid ub wa pl ts ]}).
Proof. intros Hwf _ Hts Hdepth. now apply generate_sent. Qed.

Lemma generate_ignores_balance_witness :
  handle_generate_proof noon (Ok (JObject overdraft)) =
  Sent 200 json_headers
    (JObject {[ "success" := JBool true;
                "data" := mock_artifact address 7 5 10 1000 1730000000500 ]}).
Proof.
  apply (generate_ignores_balance noon overdraft address 7 5 10 1000
           1730000000500).
  - split; vm_compute; reflexivity.
  - lia.
  - vm_compute. reflexivity.
  - cbn. lia.
Defined.

(** ** Missing fields *)

(** C4 at a body that decodes to a number, [5] say, and so has none of the
    required fields: [field not in data] raises [TypeError] and both
    handlers answer 500, not 400.  On a dict the handlers do answer 400 and
    name the field ([generate_missing_field], [verify_missing_field]). *)
Theorem number_body_is_500 env z :
  handle_generate_proof env (Ok (JInt z)) =
    SendError 500 (InternalServerError TypeError) /\
  handle_verify_proof env (Ok (JInt z)) =
    SendError 500 (InternalServerError TypeError).
Proof. split; reflexivity. Qed.

(** ** The health check *)

(** C5 fails on the code: with both dependencies down the status reported
    is not the one the Health Reporter of the spec computes. *)
Lemma health_when_all_down :
  spec_health_status all_down = "unhealthy" /\
  body_field "status" (serve all_down noon (POST "/api/health" (Ok JNull)))
  = Some (JString "healthy").
Proof. vm_compute. split; reflexivity. Qed.

(** C5, as the code has it: every health-check response is 200 with the
    constant status "healthy", the clock reading and version "1.0.0"; the
    dependencies are not checked, so the status is the one the spec asks
    for exactly when both of them are up. *)
Theorem health_is_constant d env payload :
  let r := serve d env (POST "/api/health" payload) in
  r = Sent 200 json_headers
        (JObject {[ "status" := JString "healthy";
                    "timestamp" := JFloat (time_time env);
                    "version" := JString "1.0.0" ]}) /\
  (body_field "status" r = Some (JString (spec_health_status d)) <->
   proof_engine_reachable d = true /\ verifier_reachable d = true).
Proof.
  split; [reflexivity|].
  change (body_field "status" (serve d env (POST "/api/health" payload)))
    with (Some (JString "healthy")).
  destruct d as [cors [|] [|]]; cbn; split;
    solve [ intros [= ?] | intros [? ?]; congruence | auto ].
Qed.

(** ** Numeric fields *)




(** ** Malformed bodies *)

(** C7 fails on the code: a body that [json.loads] rejects is answered
    500 by both handlers. *)
Lemma malformed_body_500 :
  status (handle_generate_proof noon (Raised JSONDecodeError)) = Some 500%Z /\
  status (handle_verify_proof noon (Raised JSONDecodeError)) = Some 500%Z.
Proof. split; reflexivity. Qed.

(** C7, as the code has it: when reading or parsing the body raises, in
    particular when the body is not JSON, both handlers answer with
    [send_error(500, "Internal server error: ...")]. *)
Theorem unparsed_body_is_500 env e :
  handle_generate_proof env (Raised e) =
    SendError 500 (InternalServerError e) /\
  handle_verify_proof env (Raised e) =
    SendError 500 (InternalServerError e).
Proof. split; reflexivity. Qed.

(** ** Cross-origin headers *)

(** C8 fails on the code: with the public-CORS option off, the health
    response carries [Access-Control-Allow-Origin: *]. *)
Lemma cors_without_demo_mode :
  public_cors_enabled all_down = false /\
  cors_header ∈
    headers_set (serve all_down noon (POST "/api/health" (Ok JNull))).
Proof. split; [reflexivity|]. vm_compute. set_solver. Qed.

(** C8, as the code has it: every response a handler writes itself has
    status 200 and carries [Access-Control-Allow-Origin: *], whatever the
    deployment's public-CORS option. *)
Theorem cors_on_every_json_response d env req code hs doc :
  serve d env req = Sent code hs doc ->
  code = 200%Z /\ cors_header ∈ hs.
Proof.
  assert (Hin : cors_header ∈ json_headers) by (unfold json_headers; set_solver).
  destruct req as [p|p payload]; [discriminate|]. unfold serve, do_POST.
  destruct (String.eqb p "/api/generate-proof").
  { unfold handle_generate_proof, try_except, bind.
    destruct payload as [data|]; [|discriminate].
    destruct (first_missing required_fields data) as [[f|]|]; try discriminate.
    destruct (mock_proof_data env data); [|discriminate].
    destruct (json_dumps env _); [|discriminate].
    intros [= <- <- _]. now split. }
  destruct (String.eqb p "/api/verify-proof").
  { unfold handle_verify_proof, try_except, bind.
    destruct payload as [data|]; [|discriminate].
    destruct (Py.contains "proof_data" data) as [[|]|]; try discriminate.
    cbn [negb]. destruct (Py.getitem data "proof_data"); [|discriminate].
    intros [= <- <- _]. now split. }
  destruct (String.eqb p "/api/health"); [|discriminate].
  unfold handle_health. intros [= <- <- _]. now split.
Qed.

Lemma cors_on_every_json_response_witness :
  200%Z = 200%Z /\ cors_header ∈ json_headers.
Proof.
  apply (cors_on_every_json_response all_down noon
           (POST "/api/health" (Ok JNull)) 200 json_headers
           (JObject {[ "status" := JString "healthy";
                       "timestamp" := JFloat (time_time noon);
                       "version" := JString "1.0.0" ]})).
  reflexivity.
Defined.

(** ** The method of the health endpoint *)

(** C9 fails on the code: a GET of /api/health is handed to the static
    file handler, and [handle_health] is not called. *)
Lemma get_health_is_static :
  serve all_down noon (GET "/api/health") = SuperGET "/api/health" /\
  serve all_down noon (GET "/api/health") <> handle_health noon.
Proof. split; [reflexivity | discriminate]. Qed.

(** C9, as the code has it: the health endpoint is reached with POST; a
    POST to /api/health is answered by [handle_health], a GET of the same
    path goes to the inherited static file handler. *)
Theorem health_is_post_only d env payload :
  serve d env (POST "/api/health" payload) = handle_health env /\
  serve d env (GET "/api/health") = SuperGET "/api/health".
Proof. split; reflexivity. Qed.

(** ** The mock artifact *)

(** C10: for a generate-proof request with the five fields, the numeric
    ones coercible by [int], the data of the success response is fixed by
    the request up to the timestamp: "0x" and 2000 times 'a', "0x" and 100
    times 'b', "0x" and 64 times 'c', mode "compressed", is_valid true and
    the five fields echoed, the numeric ones as integers.  The response is
    that success whenever the clock reading converts to an integer and the
    document can be encoded; when the user_address is nested too deep for
    [json.dumps], the 200 headers are followed by the 500 page. *)
Theorem generate_success_data env (m : gmap string json) ua pid ub wa pl :
  well_formed m ua pid ub wa pl ->
  match timestamp_ms env with
  | Ok ts =>
      if json_depth ua + 2 <=? json_max_depth env then
        handle_generate_proof env (Ok (JObject m)) =
        Sent 200 json_headers
          (JObject
             {[ "success" := JBool true;
                "data" :=
                  JObject
                    {[ "proof" :=
                         JString ("0x" +:+ string_of_list_ascii (repeat "a"%char 2000));
                       "public_inputs" :=
                         JString ("0x" +:+ string_of_list_ascii (repeat "b"%char 100));
                       "vkey_hash" :=
                         JString ("0x" +:+ string_of_list_ascii (repeat "c"%char 64));
                       "mode" := JString "compressed";
                       "user_address" := ua;
                       "pool_id" := JInt pid;
                       "user_balance" := JInt ub;
                       "withdrawal_amount" := JInt wa;
                       "pool_liquidity" := JInt pl;
                       "timestamp" := JInt ts;
                       "is_valid" := JBool true ]} ]})
      else
        handle_generate_proof env (Ok (JObject m)) =
        HeadersThenError 200 json_headers (InternalServerError RecursionError)
  | Raised e =>
      handle_generate_proof env (Ok (JObject m)) =
      SendError 500 (InternalServerError e)
  end.
Proof.
  intros Hwf. destruct (timestamp_ms env) as [ts|e] eqn:Hts.
  - rewrite (generate_well_formed env m ua pid ub wa pl ts Hwf Hts).
    destruct (json_depth ua + 2 <=? json_max_depth env); [|reflexivity].
    unfold mock_artifact. now rewrite !str_mul_repeat.
  - exact (generate_clock_raised env m ua pid ub wa pl e Hwf Hts).
Qed.

(** The numeric fields of [mixed] are a boolean, a float and two texts:
    they come back as the integers 1, 100, 40 and 1000. *)
Lemma generate_success_data_witness :
  let r := handle_generate_proof noon (Ok (JObject mixed)) in
  is_success r = true /\
  data_field "proof" r =
    Some (JString ("0x" +:+ string_of_list_ascii (repeat "a"%char 2000))) /\
  data_field "user_address" r = Some address /\
  data_field "pool_id" r = Some (JInt 1) /\
  data_field "user_balance" r = Some (JInt 100) /\
  data_field "withdrawal_amount" r = Some (JInt 40) /\
  data_field "pool_liquidity" r = Some (JInt 1000).
Proof.
  pose proof (generate_success_data noon mixed address 1 100 40 1000) as H.
  assert (Hwf : well_formed mixed address 1 100 40 1000)
    by (split; vm_compute; reflexivity).
  specialize (H Hwf).
  change (timestamp_ms noon) with (@Ok Z 1730000000500%Z) in H.
  change (json_depth address + 2 <=? json_max_depth noon) with true in H.
  cbv zeta. rewrite H. repeat split; vm_compute; reflexivity.
Defined.

(** ** The validation loop on any document *)

(** What [first_missing] returns: the field it names is not in the
    document and every field before it is. *)
Lemma first_missing_some fields data g :
  first_missing fields data = Ok (Some g) ->
  exists pre post, fields = pre ++ g :: post /\
    Forall (fun f => Py.contains f data = Ok true) pre /\
    Py.contains g data = Ok false.
Proof.
  induction fields as [|f fields IH]; [discriminate|].
  cbn [first_missing]. unfold bind.
  destruct (Py.contains f data) as [[|]|] eqn:Hf; [| |discriminate].
  - intros H. destruct (IH H) as (pre & post & -> & Hpre & Hg).
    exists (f :: pre), post. repeat split; [constructor|]; assumption.
  - intros [= <-]. exists [], fields. repeat split; [constructor | assumption].
Qed.

Lemma first_missing_found pre g post data :
  Forall (fun f => Py.contains f data = Ok true) pre ->
  Py.contains g data = Ok false ->
  first_missing (pre ++ g :: post) data = Ok (Some g).
Proof.
  intros Hpre Hg. induction Hpre as [|f pre Hf _ IH].
  - cbn [app first_missing]. now rewrite Hg.
  - cbn [app first_missing]. now rewrite Hf.
Qed.

(** X1: when the document lacks required fields, generate-proof answers
    400 and names the first of them in the order user_address, pool_id,
    user_balance, withdrawal_amount, pool_liquidity, before any value is
    coerced. *)
Theorem generate_names_first_absent env data pre g post :
  required_fields = pre ++ g :: post ->
  Forall (fun f => Py.contains f data = Ok true) pre ->
  Py.contains g data = Ok false ->
  handle_generate_proof env (Ok data) =
  SendError 400 (Text ("Missing required field: " +:+ g)).
Proof.
  intros Heq Hpre Hg. unfold handle_generate_proof. cbn [bind].
  rewrite Heq, (first_missing_found _ _ _ _ Hpre Hg). reflexivity.
Qed.

Lemma generate_names_first_absent_witness :
  handle_generate_proof noon (Ok (JObject partial)) =
  SendError 400 (Text "Missing required field: pool_id").
Proof.
  apply (generate_names_first_absent noon (JObject partial) ["user_address"]
           "pool_id" ["user_balance"; "withdrawal_amount"; "pool_liquidity"]).
  - reflexivity.
  - repeat constructor.
  - vm_compute. reflexivity.
Defined.

(** X2: a 400 of generate-proof is always about a required field that the
    decoded document really lacks; a field that is present is never
    reported missing. *)
Theorem generate_400_is_sound env payload msg :
  handle_generate_proof env payload = SendError 400 msg ->
  exists data g, payload = Ok data /\ g ∈ required_fields /\
    Py.contains g data = Ok false /\
    msg = Text ("Missing required field: " +:+ g).
Proof.
  unfold handle_generate_proof, try_except, bind.
  destruct payload as [data|e]; [|discriminate].
  destruct (first_missing required_fields data) as [[g|]|e] eqn:Hfm;
    [| |discriminate].
  - intros [= <-]. exists data, g.
    destruct (first_missing_some _ _ _ Hfm) as (pre & post & Heq & _ & Hg).
    repeat split; try assumption. rewrite Heq. set_solver.
  - destruct (mock_proof_data env data); [|discriminate].
    destruct (json_dumps env _); discriminate.
Qed.

Lemma generate_400_is_sound_witness :
  exists data g, Ok (JObject partial) = Ok data /\ g ∈ required_fields /\
    Py.contains g data = Ok false /\
    Text "Missing required field: pool_id" =
    Text ("Missing required field: " +:+ g).
Proof.
  apply (generate_400_is_sound noon (Ok (JObject partial))
           (Text "Missing required field: pool_id")).
  reflexivity.
Defined.

(** ** Which requests succeed *)

Lemma getitem_ok_dict data key v :
  Py.getitem data key = Ok v -> exists m, data = JObject m /\ m !! key = Some v.
Proof.
  destruct data as [| | | | | |m]; try discriminate.
  unfold Py.getitem. destruct (m !! key) eqn:Hk; [|discriminate].
  intros [= <-]. eauto.
Qed.

(** X3: generate-proof succeeds only for a body that decodes to a JSON
    object holding the five fields with the numeric ones coercible by
    [int], under a clock reading that converts and with a user_address
    that is not nested too deep to be encoded; an array or a string that
    merely contains the five names is not accepted.  The success is then
    the mock artifact with status 200. *)
Theorem generate_success_inversion env payload code hs doc :
  handle_generate_proof env payload = Sent code hs doc ->
  exists m ua pid ub wa pl ts,
    payload = Ok (JObject m) /\
    well_formed m ua pid ub wa pl /\
    timestamp_ms env = Ok ts /\
    json_depth ua + 2 <= json_max_depth env /\
    code = 200%Z /\ hs = json_headers /\
    doc = JObject {[ "success" := JBool true;
                     "data" := mock_artifact ua pid ub wa pl ts ]}.
Proof.
  unfold handle_generate_proof, try_except, bind.
  destruct payload as [data|e]; [|discriminate].
  destruct (first_missing required_fields data) as [[g|]|e];
    [discriminate| |discriminate].
  unfold mock_proof_data, bind.
  destruct (Py.getitem data "user_address") as [ua|] eqn:Hua; [|discriminate].
  apply getitem_ok_dict in Hua as (m & -> & Hua).
  destruct (int_field (JObject m) "pool_id") as [pid|] eqn:Hpid; [|discriminate].
  destruct (int_field (JObject m) "user_balance") as [ub|] eqn:Hub;
    [|discriminate].
  destruct (int_field (JObject m) "withdrawal_amount") as [wa|] eqn:Hwa;
    [|discriminate].
  destruct (int_field (JObject m) "pool_liquidity") as [pl|] eqn:Hpl;
    [|discriminate].
  destruct (timestamp_ms env) as [ts|] eqn:Hts; [|discriminate].
  unfold json_dumps. rewrite success_doc_depth.
  destruct (json_depth ua + 2 <=? json_max_depth env) eqn:Hdepth;
    [|discriminate].
  apply Nat.leb_le in Hdepth.
  intros [= <- <- <-]. exists m, ua, pid, ub, wa, pl, ts.
  repeat split; assumption.
Qed.

(** The request [mixed], whose numeric fields are a boolean, a float and
    two texts, one of them in Arabic-Indic digits. *)
Lemma generate_success_inversion_witness :
  exists m ua pid ub wa pl ts,
    Ok (JObject mixed) = Ok (JObject m) /\
    well_formed m ua pid ub wa pl /\
    timestamp_ms noon = Ok ts /\
    json_depth ua + 2 <= json_max_depth noon /\
    200%Z = 200%Z /\ json_headers = json_headers /\
    JObject {[ "success" := JBool true;
               "data" := mock_artifact address 1 100 40 1000 1730000000500 ]} =
    JObject {[ "success" := JBool true;
               "data" := mock_artifact ua pid ub wa pl ts ]}.
Proof.
  apply (generate_success_inversion noon (Ok (JObject mixed)) 200 json_headers
           (JObject {[ "success" := JBool true;
                       "data" := mock_artifact address 1 100 40 1000
                                   1730000000500 ]})).
  apply (generate_sent noon mixed address 1 100 40 1000 1730000000500).
  - split; vm_compute; reflexivity.
  - vm_compute. reflexivity.
  - cbn. lia.
Defined.

(** X4: generate-proof reads the five required members of the object and
    nothing else: two objects that agree on them get the same response, so
    members the server does not know are ignored. *)
Theorem generate_reads_required_only env (m1 m2 : gmap string json) :
  (forall f, f ∈ required_fields -> m1 !! f = m2 !! f) ->
  handle_generate_proof env (Ok (JObject m1)) =
  handle_generate_proof env (Ok (JObject m2)).
Proof.
  intros Hagree.
  assert (Hua : m1 !! "user_address" = m2 !! "user_address")
    by (apply Hagree; unfold required_fields; set_solver).
  assert (Hpid : m1 !! "pool_id" = m2 !! "pool_id")
    by (apply Hagree; unfold required_fields; set_solver).
  assert (Hub : m1 !! "user_balance" = m2 !! "user_balance")
    by (apply Hagree; unfold required_fields; set_solver).
  assert (Hwa : m1 !! "withdrawal_amount" = m2 !! "withdrawal_amount")
    by (apply Hagree; unfold required_fields; set_solver).
  assert (Hpl : m1 !! "pool_liquidity" = m2 !! "pool_liquidity")
    by (apply Hagree; unfold required_fields; set_solver).
  unfold handle_generate_proof. cbn [bind].
  rewrite !first_missing_dict. unfold required_fields. cbn [List.find].
  unfold mock_proof_data, int_field, Py.getitem.
  now rewrite Hua, Hpid, Hub, Hwa, Hpl.
Qed.

Lemma generate_reads_required_only_witness :
  handle_generate_proof noon (Ok (JObject annotated)) =
  handle_generate_proof noon (Ok (JObject modest)).
Proof.
  apply (generate_reads_required_only noon annotated modest).
  intros f Hf. unfold required_fields in Hf.
  repeat (apply elem_of_cons in Hf as [-> | Hf]);
    try (vm_compute; reflexivity).
  now apply elem_of_nil in Hf.
Defined.

(** X5: feeding the data of a success back to generate-proof gives the same
    response again: the mock artifact is itself a request with the five
    fields, the numeric ones already integers. *)
Theorem generate_resubmit env (m : gmap string json) ua pid ub wa pl ts :
  well_formed m ua pid ub wa pl ->
  timestamp_ms env = Ok ts ->
  handle_generate_proof env (Ok (mock_artifact ua pid ub wa pl ts)) =
  handle_generate_proof env (Ok (JObject m)).
Proof.
  intros Hwf Hts.
  rewrite (generate_well_formed env m ua pid ub wa pl ts Hwf Hts).
  unfold mock_artifact at 1.
  apply (generate_well_formed env _ ua pid ub wa pl ts); [|assumption].
  split; reflexivity.
Qed.

Lemma generate_resubmit_witness :
  handle_generate_proof noon
    (Ok (mock_artifact address (-1) (-5) 0 (-1000) 1730000000500)) =
  handle_generate_proof noon (Ok (JObject negative)).
Proof.
  apply (generate_resubmit noon negative address (-1) (-5) 0 (-1000)
           1730000000500).
  - split; vm_compute; reflexivity.
  - vm_compute. reflexivity.
Defined.

(** ** verify-proof on any body *)

(** X6: verify-proof succeeds only for a body that decodes to a JSON
    object with a proof_data member, and the success echoes that member
    unchanged under "data", with status 200. *)
Theorem verify_success_inversion env payload code hs doc :
  handle_verify_proof env payload = Sent code hs doc ->
  exists (m : gmap string json) pd,
    payload = Ok (JObject m) /\ m !! "proof_data" = Some pd /\
    code = 200%Z /\ hs = json_headers /\
    body_field "data" (Sent code hs doc) = Some pd.
Proof.
  unfold handle_verify_proof, try_except, bind.
  destruct payload as [data|e]; [|discriminate].
  destruct (Py.contains "proof_data" data) as [[|]|]; try discriminate.
  cbn [negb].
  destruct (Py.getitem data "proof_data") as [pd|] eqn:Hpd; [|discriminate].
  apply getitem_ok_dict in Hpd as (m & -> & Hpd).
  intros [= <- <- <-]. exists m, pd. repeat split; assumption.
Qed.

Lemma verify_success_inversion_witness :
  exists (m : gmap string json) pd,
    Ok (JObject artifact) = Ok (JObject m) /\ m !! "proof_data" = Some pd /\
    200%Z = 200%Z /\ json_headers = json_headers /\
    body_field "data"
      (Sent 200 json_headers
         (JObject {[ "success" := JBool true;
                     "valid" := JBool true;
                     "data" := JObject {[ "proof" := JString "0xdead" ]} ]}))
    = Some pd.
Proof.
  apply (verify_success_inversion noon (Ok (JObject artifact)) 200 json_headers
           (JObject {[ "success" := JBool true;
                       "valid" := JBool true;
                       "data" := JObject {[ "proof" := JString "0xdead" ]} ]})).
  vm_compute. reflexivity.
Defined.

(** X7: on a body that decodes to a JSON object verify-proof never fails
    with 500: the status is 200 when proof_data is a member, of whatever
    type (null included), and 400 when it is not. *)
Theorem verify_object_status env (m : gmap string json) :
  status (handle_verify_proof env (Ok (JObject m))) =
  Some (if m !! "proof_data" is Some _ then 200 else 400)%Z.
Proof.
  destruct (m !! "proof_data") as [pd|] eqn:Hpd.
  - unfold handle_verify_proof. cbn [bind].
    rewrite (contains_present m "proof_data") by eauto. cbn [negb bind].
    unfold Py.getitem. now rewrite Hpd.
  - unfold handle_verify_proof. cbn [bind].
    now rewrite (contains_absent m "proof_data" Hpd).
Qed.

(** X8: generate-proof followed by verify-proof: the data of a
    generate-proof success, wrapped as proof_data, is accepted by
    verify-proof and comes back unchanged; its validity is the draw of that
    call. *)
Theorem generate_then_verify env env' (m : gmap string json)
    ua pid ub wa pl ts generated :
  well_formed m ua pid ub wa pl ->
  timestamp_ms env = Ok ts ->
  body_field "data" (handle_generate_proof env (Ok (JObject m))) =
    Some generated ->
  generated = mock_artifact ua pid ub wa pl ts /\
  handle_verify_proof env' (Ok (JObject {[ "proof_data" := generated ]})) =
  Sent 200 json_headers
    (JObject {[ "success" := JBool true;
                "valid" := JBool (0.1 <? random_random env')%float;
                "data" := generated ]}).
Proof.
  intros Hwf Hts.
  rewrite (generate_well_formed env m ua pid ub wa pl ts Hwf Hts).
  destruct (json_depth ua + 2 <=? json_max_depth env); [|discriminate].
  intros [= <-]. split; reflexivity.
Qed.

Lemma generate_then_verify_witness :
  mock_artifact address 7 100 40 1000 1730000000500 =
  mock_artifact address 7 100 40 1000 1730000000500 /\
  handle_verify_proof unlucky
    (Ok (JObject
           {[ "proof_data" :=
                mock_artifact address 7 100 40 1000 1730000000500 ]})) =
  Sent 200 json_headers
    (JObject {[ "success" := JBool true;
                "valid" := JBool (0.1 <? random_random unlucky)%float;
                "data" := mock_artifact address 7 100 40 1000 1730000000500 ]}).
Proof.
  apply (generate_then_verify noon unlucky modest address 7 100 40 1000
           1730000000500).
  - split; vm_compute; reflexivity.
  - vm_compute. reflexivity.
  - vm_compute. reflexivity.
Defined.

(** ** Routing *)

Lemma verify_status env payload :
  status (handle_verify_proof env payload) ∈ [Some 200; Some 400; Some 500]%Z.
Proof.
  unfold handle_verify_proof, try_except, bind.
  destruct payload as [data|e]; [|cbn; rewrite !elem_of_cons; tauto].
  destruct (Py.contains "proof_data" data) as [[|]|];
    [|cbn; rewrite !elem_of_cons; tauto..].
  cbn [negb]. destruct (Py.getitem data "proof_data");
    cbn; rewrite !elem_of_cons; tauto.
Qed.

(** X9: a POST is answered with the 404 page "Not Found" exactly when its
    path is none of /api/generate-proof, /api/verify-proof and /api/health,
    compared as whole strings; the body of such a request is not looked
    at, and no handler answers 404 itself. *)
Theorem post_404_iff_unknown_path d env p payload :
  serve d env (POST p payload) = SendError 404 (Text "Not Found") <->
  p ∉ ["/api/generate-proof"; "/api/verify-proof"; "/api/health"].
Proof.
  unfold serve, do_POST. rewrite !not_elem_of_cons.
  destruct (String.eqb_spec p "/api/generate-proof") as [->|H1].
  { split; [|tauto]. intros H404.
    pose proof (generate_status env payload) as Hs. rewrite H404 in Hs.
    rewrite !elem_of_cons, elem_of_nil in Hs.
    exfalso. intuition discriminate. }
  destruct (String.eqb_spec p "/api/verify-proof") as [->|H2].
  { split; [|tauto]. intros H404.
    pose proof (verify_status env payload) as Hs. rewrite H404 in Hs.
    rewrite !elem_of_cons, elem_of_nil in Hs.
    exfalso. intuition discriminate. }
  destruct (String.eqb_spec p "/api/health") as [->|H3].
  { split; [discriminate | tauto]. }
  split; [intros _ | reflexivity].
  repeat split; try assumption. apply not_elem_of_nil.
Qed.

(** X10: whatever the path and the body, a POST response never carries a
    status other than 200, 400, 404 or 500. *)
Theorem post_statuses d env p payload code :
  status (serve d env (POST p payload)) = Some code ->
  code ∈ [200; 400; 404; 500]%Z.
Proof.
  assert (Hsub : forall s : option Z,
             s ∈ [Some 200; Some 400; Some 500]%Z -> s = Some code ->
             code ∈ [200; 400; 404; 500]%Z).
  { intros s Hs ->. rewrite !elem_of_cons, elem_of_nil in Hs.
    rewrite !elem_of_cons.
    destruct Hs as [[= ->] | [[= ->] | [[= ->] | []]]]; tauto. }
  unfold serve, do_POST.
  destruct (String.eqb p "/api/generate-proof");
    [apply Hsub, generate_status|].
  destruct (String.eqb p "/api/verify-proof"); [apply Hsub, verify_status|].
  destruct (String.eqb p "/api/health"); cbn; intros [= <-];
    rewrite !elem_of_cons; tauto.
Qed.

Lemma post_statuses_witness : (400 : Z) ∈ [200; 400; 404; 500]%Z.
Proof.
  apply (post_statuses all_down noon "/api/generate-proof"
           (Ok (JObject partial)) 400).
  reflexivity.
Defined.

(** X11: on a body that decodes to a JSON object, generate-proof answers
    400 exactly when one of the five required fields is absent: values that
    cannot be coerced never hide a missing field, and never cause a 400. *)
Theorem generate_object_400_iff env (m : gmap string json) :
  status (handle_generate_proof env (Ok (JObject m))) = Some 400%Z <->
  exists f, f ∈ required_fields /\ m !! f = None.
Proof.
  split.
  - unfold handle_generate_proof. cbn [bind]. rewrite first_missing_dict.
    destruct (List.find _ required_fields) as [g|] eqn:Hfind; cbn [bind].
    + intros _. apply find_some in Hfind as [Hg Habs]. exists g.
      split; [now apply list_elem_of_In|]. now destruct (m !! g).
    + destruct (mock_proof_data env (JObject m)); [|discriminate].
      cbn [bind]. destruct (json_dumps env _); discriminate.
  - intros (f & Hf & Hm).
    destruct (generate_missing_field env m f Hf Hm) as (g & _ & _ & ->).
    reflexivity.
Qed.

(** X12: GET serves "/" as "/index.html" and every other path as it is:
    two paths are handed to the static file handler as the same path
    exactly when they are equal or are both among "/" and "/index.html". *)
Theorem do_GET_aliases p q :
  do_GET p = do_GET q <->
  p = q \/ (p ∈ ["/"; "/index.html"] /\ q ∈ ["/"; "/index.html"]).
Proof.
  unfold do_GET. rewrite !elem_of_cons, !elem_of_nil.
  destruct (String.eqb_spec p "/") as [->|Hp],
           (String.eqb_spec q "/") as [->|Hq].
  - split; [intros _; now left | reflexivity].
  - split.
    + intros [= <-]. right. split; [now left | right; now left].
    + intros [<- | [_ [-> | [-> | []]]]];
        [now destruct Hq | now destruct Hq | reflexivity].
  - split.
    + intros [= ->]. right. split; [right; now left | now left].
    + intros [-> | [[-> | [-> | []]] _]];
        [now destruct Hp | now destruct Hp | reflexivity].
  - split.
    + intros [= ->]. now left.
    + intros [-> | [[-> | [-> | []]] [-> | [-> | []]]]];
        first [reflexivity | now destruct Hp | now destruct Hq].
Qed.

(** ** Bodies that are not objects *)

Lemma first_missing_all fields data :
  Forall (fun f => Py.contains f data = Ok true) fields ->
  first_missing fields data = Ok None.
Proof.
  induction 1 as [|f fields Hf _ IH]; [reflexivity|].
  cbn [first_missing]. now rewrite Hf.
Qed.

(** X13: the presence test of generate-proof is Python's [in], which also
    holds for an array that has the five names as elements and for a text
    in which they occur.  Such a body passes the validation loop and then
    fails at [data['user_address']]: the answer is 500, not 400 and not a
    success. *)
Theorem generate_names_without_object env data :
  (forall m, data <> JObject m) ->
  Forall (fun f => Py.contains f data = Ok true) required_fields ->
  handle_generate_proof env (Ok data) =
  SendError 500 (InternalServerError TypeError).
Proof.
  intros Hobj Hall. unfold handle_generate_proof. cbn [bind].
  rewrite (first_missing_all _ _ Hall). cbn [bind].
  destruct data as [| | | | | |m]; try reflexivity.
  now destruct (Hobj m).
Qed.

Lemma generate_names_without_object_witness :
  handle_generate_proof noon (Ok names_only) =
  SendError 500 (InternalServerError TypeError).
Proof.
  apply (generate_names_without_object noon names_only).
  - intros m. discriminate.
  - repeat constructor.
Defined.

(** ** Headers before the document *)

(** X14: generate-proof sends its 200 status line and headers before it
    encodes the document.  For a request with the five fields, coercible,
    whose user_address is nested so deep that the document, two levels
    deeper, is beyond what [json.dumps] encodes, the 200 headers have gone
    out when [RecursionError] reaches the [except]: the 500 page follows
    them and no JSON document is sent. *)
Theorem generate_headers_before_document env (m : gmap string json)
    ua pid ub wa pl ts :
  well_formed m ua pid ub wa pl ->
  timestamp_ms env = Ok ts ->
  json_max_depth env < json_depth ua + 2 ->
  handle_generate_proof env (Ok (JObject m)) =
  HeadersThenError 200 json_headers (InternalServerError RecursionError).
Proof.
  intros Hwf Hts Hdepth.
  rewrite (generate_well_formed env m ua pid ub wa pl ts Hwf Hts).
  apply Nat.leb_gt in Hdepth. now rewrite Hdepth.
Qed.

Lemma generate_headers_before_document_witness :
  handle_generate_proof cramped (Ok (JObject boxed)) =
  HeadersThenError 200 json_headers (InternalServerError RecursionError).
Proof.
  apply (generate_headers_before_document cramped boxed (JList [address])
           7 100 40 1000 1730000000500).
  - split; vm_compute; reflexivity.
  - vm_compute. reflexivity.
  - cbn. lia.
Defined.
